(** * go-xss-query: the [xss] package, embedded and verified

    The package queries the X screen saver extension.  Its Go code is
    embedded below function by function ([Kind.String], [NewClient],
    [Client.Query]); the Xlib calls it makes through cgo are modelled as
    operations on an explicit [World], and the answer of the X server to one
    round trip is an explicit argument. *)

From Stdlib Require Import ZArith Lia.
From stdpp Require Import base option gmap strings list pretty.

Open Scope Z_scope.

(** ** Go's [time] package: [time.Duration] is an [int64] of nanoseconds *)

Definition int64_min : Z := - 2 ^ 63.
Definition int64_max : Z := 2 ^ 63 - 1.

(** Two's-complement wrap-around of a mathematical integer into [int64]:
    what an [int64] multiplication, or a conversion from [uint64],
    leaves. *)
Definition wrap64 (z : Z) : Z := (z + 2 ^ 63) mod 2 ^ 64 - 2 ^ 63.

Definition Duration : Type := Z.
Definition Nanosecond : Duration := 1.
Definition Microsecond : Duration := 1000 * Nanosecond.
Definition Millisecond : Duration := 1000 * Microsecond.

(** [time.Duration(x)] for an unsigned C integer [x] *)
Definition Duration_of (x : Z) : Duration := wrap64 x.

(** [a * b] on [time.Duration] *)
Definition Duration_mul (a b : Duration) : Duration := wrap64 (a * b).

(** The expression [time.Duration(x) * time.Millisecond] of [Query]. *)
Definition millis (x : Z) : Duration :=
  Duration_mul (Duration_of x) Millisecond.

(** The largest millisecond count whose nanoseconds fit an [int64]. *)
Definition max_millis : Z := 9223372036854.

(** ** The X11 side *)

(** The codes of [X11/extensions/saver.h] that [Query] switches on.  The
    header is not part of the package, so the development is parametric in
    their values.  The Go compiler rejects a [switch] with two equal
    constant cases, hence the codes of one switch are pairwise distinct. *)
Class SaverCodes := {
  ScreenSaverOn : Z;
  ScreenSaverOff : Z;
  ScreenSaverDisabled : Z;
  ScreenSaverBlanked : Z;
  ScreenSaverInternal : Z;
  ScreenSaverExternal : Z;
  state_codes_distinct :
    ScreenSaverOn ≠ ScreenSaverOff ∧
    ScreenSaverOn ≠ ScreenSaverDisabled ∧
    ScreenSaverOff ≠ ScreenSaverDisabled;
  kind_codes_distinct :
    ScreenSaverBlanked ≠ ScreenSaverInternal ∧
    ScreenSaverBlanked ≠ ScreenSaverExternal ∧
    ScreenSaverInternal ≠ ScreenSaverExternal
}.

(** The values the header of X.Org gives them. *)
Definition saver_h : SaverCodes.
Proof.
  refine {| ScreenSaverOff := 0; ScreenSaverOn := 1; ScreenSaverDisabled := 3;
            ScreenSaverBlanked := 0; ScreenSaverInternal := 1;
            ScreenSaverExternal := 2 |}; repeat split; discriminate.
Defined.

(** [XScreenSaverInfo], restricted to the fields [Query] reads: [state] and
    [kind] are C [int]s, [til_or_since] and [idle] are C [unsigned long]s
    counting milliseconds. *)
Record XScreenSaverInfo := mkXInfo {
  state : Z;
  kind : Z;
  til_or_since : Z;
  idle : Z
}.

(** Values a 64-bit C compiler can store in the struct. *)
Definition c_int (z : Z) : bool := (- 2 ^ 31 <=? z) && (z <? 2 ^ 31).
Definition c_ulong (z : Z) : bool := (0 <=? z) && (z <? 2 ^ 64).
Definition well_typed (r : XScreenSaverInfo) : bool :=
  c_int (state r) && c_int (kind r) &&
  c_ulong (til_or_since r) && c_ulong (idle r).

(** C's [Status] *)
Definition Status : Type := Z.

(** Addresses and pointers; [None] is the nil pointer. *)
Abbreviation addr := positive (only parsing).
Abbreviation ptr := (option positive) (only parsing).

(** One round trip of [XScreenSaverQueryInfo] as the X server and Xlib decide
    it: from the contents of the caller's buffer to the status returned and
    the contents left in the buffer. *)
Definition RoundTrip : Type := XScreenSaverInfo → Status * XScreenSaverInfo.

(** ** The package's types *)

(** [type Kind int] with its three constants *)
Definition Kind : Type := Z.
Definition Blanked : Kind := 0.
Definition Internal : Kind := 1.
Definition External : Kind := 2.

(** [func (k Kind) String() string] *)
Definition String (k : Kind) : string :=
  if k =? Blanked then "blanked"
  else if k =? Internal then "internal"
  else if k =? External then "external"
  else "unknown".

(** [type Info struct]; the field [Kind] is [Kind_] here, the type has the
    name. *)
Record Info := mkInfo {
  Enabled : bool;
  Active : bool;
  Kind_ : Kind;
  Countdown : Duration;
  ActiveTime : Duration;
  IdleTime : Duration
}.

(** The zero value of [Info], which the named result [i] starts from. *)
Definition Info_zero : Info := mkInfo false false 0 0 0 0.

Definition set_Enabled (b : bool) (i : Info) : Info :=
  mkInfo b (Active i) (Kind_ i) (Countdown i) (ActiveTime i) (IdleTime i).
Definition set_Active (b : bool) (i : Info) : Info :=
  mkInfo (Enabled i) b (Kind_ i) (Countdown i) (ActiveTime i) (IdleTime i).
Definition set_Kind (k : Kind) (i : Info) : Info :=
  mkInfo (Enabled i) (Active i) k (Countdown i) (ActiveTime i) (IdleTime i).
Definition set_Countdown (d : Duration) (i : Info) : Info :=
  mkInfo (Enabled i) (Active i) (Kind_ i) d (ActiveTime i) (IdleTime i).
Definition set_ActiveTime (d : Duration) (i : Info) : Info :=
  mkInfo (Enabled i) (Active i) (Kind_ i) (Countdown i) d (IdleTime i).
Definition set_IdleTime (d : Duration) (i : Info) : Info :=
  mkInfo (Enabled i) (Active i) (Kind_ i) (Countdown i) (ActiveTime i) d.

(** Go's [error]: [None] is nil, [fmt.Errorf] gives a message. *)
Definition error : Type := option string.
Definition Errorf (msg : string) : error := Some msg.

(** [type Client struct]: two C pointers and a [sync.Mutex], which is a
    value (locked or not) stored in the struct itself. *)
Record Client := mkClient {
  disp : ptr;
  info : ptr;
  mutex : bool
}.

(** The zero value of [Client]. *)
Definition Client_zero : Client := mkClient None None false.

(** ** The world the package runs in *)

Record World := mkWorld {
  (** connections opened by [XOpenDisplay] and not closed *)
  displays : gset addr;
  (** the [XScreenSaverInfo] buffers allocated and not freed *)
  buffers : gmap addr XScreenSaverInfo;
  (** the [Client] objects of the Go heap *)
  objects : gmap addr Client;
  (** the objects on which [runtime.SetFinalizer] has set the finalizer *)
  finalizers : gset addr;
  (** the round trips the X server has answered *)
  trips : nat
}.

Definition set_displays (f : gset addr → gset addr) (w : World) : World :=
  mkWorld (f (displays w)) (buffers w) (objects w) (finalizers w) (trips w).
Definition set_buffers
    (f : gmap addr XScreenSaverInfo → gmap addr XScreenSaverInfo)
    (w : World) : World :=
  mkWorld (displays w) (f (buffers w)) (objects w) (finalizers w) (trips w).
Definition set_objects (f : gmap addr Client → gmap addr Client) (w : World)
    : World :=
  mkWorld (displays w) (buffers w) (f (objects w)) (finalizers w) (trips w).
Definition set_finalizers (f : gset addr → gset addr) (w : World) : World :=
  mkWorld (displays w) (buffers w) (objects w) (f (finalizers w)) (trips w).
Definition count_trip (w : World) : World :=
  mkWorld (displays w) (buffers w) (objects w) (finalizers w) (S (trips w)).

(** How a call ends: it returns a value in a new world, it panics, it
    blocks for ever on a mutex that nobody will unlock, or the C side
    touches memory it does not own. *)
Inductive Res (A : Type) : Type :=
| Returns (a : A) (w : World)
| Panics (msg : string)
| Blocks
| Faults.
Arguments Returns {A} a w.
Arguments Panics {A} msg.
Arguments Blocks {A}.
Arguments Faults {A}.

Definition M (A : Type) : Type := World → Res A.

#[global] Instance M_ret : MRet M := λ A a w, Returns a w.
#[global] Instance M_bind : MBind M := λ A B k m w,
  match m w with
  | Returns a w' => k a w'
  | Panics msg => Panics msg
  | Blocks => Blocks
  | Faults => Faults
  end.

Definition panic {A} (msg : string) : M A := λ _, Panics msg.
Definition block {A} : M A := λ _, Blocks.
Definition fault {A} : M A := λ _, Faults.
Definition get : M World := λ w, Returns w w.
Definition modify (f : World → World) : M unit := λ w, Returns tt (f w).

(** ** Xlib and the Go runtime, as far as the package calls them *)

(** What the environment decides when a client is constructed: whether a
    display can be opened, what [XScreenSaverQueryExtension] answers, and
    what [XScreenSaverAllocInfo] hands out ([None]: out of memory, a NULL
    pointer; otherwise the contents of the fresh buffer). *)
Record XEnv := mkXEnv {
  can_open : bool;
  extension : Z;
  alloc : option XScreenSaverInfo
}.

(** [XOpenDisplay(NULL)] *)
Definition XOpenDisplay (x : XEnv) : M ptr := λ w,
  if can_open x then
    let d := fresh (displays w) in
    Returns (Some d) (set_displays (union {[d]}) w)
  else Returns None w.

(** [XScreenSaverQueryExtension(disp, &base, &errbase)]; the two outputs are
    not used by the package. *)
Definition XScreenSaverQueryExtension (x : XEnv) (d : addr) : M Z := λ w,
  if decide (d ∈ displays w) then Returns (extension x) w else Faults.

(** [XScreenSaverAllocInfo()] *)
Definition XScreenSaverAllocInfo (x : XEnv) : M ptr := λ w,
  match alloc x with
  | Some garbage =>
      let a := fresh (dom (buffers w)) in
      Returns (Some a) (set_buffers <[a := garbage]> w)
  | None => Returns None w
  end.

(** [XFree(p)]: nothing for NULL, a fault for memory that is not
    allocated (any more). *)
Definition XFree (p : ptr) : M unit := λ w,
  match p with
  | None => Returns tt w
  | Some a =>
      match buffers w !! a with
      | Some _ => Returns tt (set_buffers (delete a) w)
      | None => Faults
      end
  end.

(** The cgo wrapper [QueryInfo(disp, info)], that is
    [XScreenSaverQueryInfo(disp, DefaultRootWindow(disp), info)]: one round
    trip [srv], which leaves its reply in the buffer [info] points to. *)
Definition QueryInfo (d : addr) (p : ptr) (srv : RoundTrip) : M Status := λ w,
  if decide (d ∈ displays w) then
    match p with
    | Some a =>
        match buffers w !! a with
        | Some buf =>
            let '(st, buf') := srv buf in
            Returns st (count_trip (set_buffers <[a := buf']> w))
        | None => Faults
        end
    | None => Faults
    end
  else Faults.

(** [&Client{...}]: a new object of the Go heap *)
Definition new_Client (cl : Client) : M addr := λ w,
  let a := fresh (dom (objects w)) in
  Returns a (set_objects <[a := cl]> w).

(** [*p] for [p *Client] *)
Definition deref (p : ptr) : M Client := λ w,
  match p ≫= (objects w !!.) with
  | Some cl => Returns cl w
  | None => Panics "invalid memory address or nil pointer dereference"
  end.

(** [runtime.SetFinalizer(cl, f)]; the package has one [f], so the set of
    objects that carry it is all there is to record. *)
Definition SetFinalizer (a : addr) : M unit :=
  modify (set_finalizers (union {[a]})).

(** ** The package's functions *)

(** The function given to [runtime.SetFinalizer]:
    [func(cl *Client) { C.XFree(unsafe.Pointer(cl.info)) }] *)
Definition finalizer (a : addr) : M unit :=
  cl ← deref (Some a);
  XFree (info cl).

(** [func NewClient()], which returns a [*Client] and an [error] *)
Definition NewClient (x : XEnv) : M (ptr * error) :=
  disp ← XOpenDisplay x;
  match disp with
  | None => mret (None, Errorf "Could not open X display.")
  | Some d =>
      present ← XScreenSaverQueryExtension x d;
      if present =? 0 then mret (None, Errorf "XSS extension not active.")
      else
        info ← XScreenSaverAllocInfo x;
        cl ← new_Client (mkClient (Some d) info false);
        SetFinalizer cl;;
        mret (Some cl, None)
  end.

Section Query.
Context {codes : SaverCodes}.

(** Lines 126 to 149 of [Query]: the fields of the result [i], written
    from the buffer [cl.info] points to, [i] starting as the zero value.
    A Go [switch] without [default] does nothing when no case matches. *)
Definition Query_decode (raw : XScreenSaverInfo) : Info :=
  let i := Info_zero in
  let i := set_IdleTime (millis (idle raw)) i in
  let i :=
    if state raw =? ScreenSaverOn then
      set_ActiveTime (millis (til_or_since raw))
        (set_Active true (set_Enabled true i))
    else if state raw =? ScreenSaverOff then
      set_Countdown (millis (til_or_since raw))
        (set_Active false (set_Enabled true i))
    else if state raw =? ScreenSaverDisabled then
      set_Active false (set_Enabled false i)
    else i in
  let i :=
    if kind raw =? ScreenSaverBlanked then set_Kind Blanked i
    else if kind raw =? ScreenSaverInternal then set_Kind Internal i
    else if kind raw =? ScreenSaverExternal then set_Kind External i
    else i in
  i.

(** Lines 117 to 121: the function literal that locks [cl.mutex], makes
    the round trip and unlocks on its way out.  [cl] is the receiver, a
    copy of the caller's [Client]; the result carries it back with the
    status. *)
Definition Query_locked (cl : Client) (d : addr) (srv : RoundTrip)
    : M (Status * Client) :=
  if mutex cl then block
  else
    let cl := mkClient (disp cl) (info cl) true in
    status ← QueryInfo d (info cl) srv;
    let cl := mkClient (disp cl) (info cl) false in
    mret (status, cl).

(** Lines 122 to 150 for a receiver [cl] and a [status]: the error
    return, or the decoding of what [cl.info] points to. *)
Definition Query_finish (cl : Client) (status : Status)
    : M (Info * error) :=
  if status =? 0 then mret (Info_zero, Errorf "Error querying XSS.")
  else
    w ← get;
    match info cl ≫= (buffers w !!.) with
    | Some raw => mret (Query_decode raw, None)
    | None => fault
    end.

(** [func (cl Client) Query() (i Info, err error)] *)
Definition Query (cl : Client) (srv : RoundTrip) : M (Info * error) :=
  match disp cl with
  | None => panic "Client instances must be created with NewClient."
  | Some d =>
      '(status, cl) ← Query_locked cl d srv;
      Query_finish cl status
  end.

(** [client.Query()] for [client *Client]: the receiver is copied out of
    the object. *)
Definition Query_at (client : ptr) (srv : RoundTrip) : M (Info * error) :=
  cl ← deref client;
  Query cl srv.
End Query.

(** A world with nothing in it. *)
Definition World_empty : World := mkWorld ∅ ∅ ∅ ∅ 0.

(** An environment in which construction succeeds. *)
Definition XEnv_ok : XEnv := mkXEnv true 1 (Some (mkXInfo 0 0 0 0)).

(** A client is live in a world when its display is open, its buffer is
    allocated and its mutex is free. *)
Definition live (cl : Client) (w : World) (raw : XScreenSaverInfo) : Prop :=
  (∃ d, disp cl = Some d ∧ d ∈ displays w) ∧
  (∃ a, info cl = Some a ∧ buffers w !! a = Some raw) ∧
  mutex cl = false.

(** ** Goroutines calling [Query] on one client

    [Query] is cut at the points where the scheduler can switch to another
    goroutine while it runs.  The decoding of lines 126 to 149 is kept in one
    piece, which only removes interleavings.  [C.QueryInfo] answers each
    goroutine as if it were alone on the display: what Xlib does when two
    calls overlap on one connection is outside the model, which shows what
    the package lets happen and not that overlapping calls are safe. *)

Inductive Pc : Type :=
| AtCall                          (** about to evaluate [client.Query()] *)
| AtLock                          (** line 118 *)
| AtRequest                       (** line 120, the mutex is held *)
| InFlight                        (** inside [C.QueryInfo] *)
| AtUnlock                        (** the deferred line 119 *)
| AtDecode                        (** line 122 *)
| Finished (r : Info * error)
| Panicked (msg : string)
| Faulted.

(** A goroutine: the client it was given, its own copy of that client (the
    receiver of [Query]), the round trip the server will make for it, and
    the local variable [status]. *)
Record Thread := mkThread {
  pc : Pc;
  target : ptr;
  self : Client;
  stub : RoundTrip;
  status : Status
}.

Definition at_pc (p : Pc) (t : Thread) : Thread :=
  mkThread p (target t) (self t) (stub t) (status t).

(** A goroutine that is about to call [client.Query()]. *)
Definition spawn (client : ptr) (srv : RoundTrip) : Thread :=
  mkThread AtCall client Client_zero srv 0.

Section Goroutines.
Context {codes : SaverCodes}.

(** One step of one goroutine; [None] when it cannot move: it has ended,
    or it waits for its mutex. *)
Definition thread_step (t : Thread) (w : World) : option (Thread * World) :=
  match pc t with
  | AtCall =>
      match deref (target t) w with
      | Returns cl _ =>
          let t := mkThread AtLock (target t) cl (stub t) (status t) in
          match disp cl with
          | Some _ => Some (t, w)
          | None =>
              Some (at_pc
                (Panicked "Client instances must be created with NewClient.")
                t, w)
          end
      | Panics msg => Some (at_pc (Panicked msg) t, w)
      | _ => Some (at_pc Faulted t, w)
      end
  | AtLock =>
      if mutex (self t) then None
      else
        let cl := mkClient (disp (self t)) (info (self t)) true in
        Some (mkThread AtRequest (target t) cl (stub t) (status t), w)
  | AtRequest => Some (at_pc InFlight t, w)
  | InFlight =>
      match disp (self t) with
      | Some d =>
          match QueryInfo d (info (self t)) (stub t) w with
          | Returns st w' =>
              Some (mkThread AtUnlock (target t) (self t) (stub t) st, w')
          | _ => Some (at_pc Faulted t, w)
          end
      | None => Some (at_pc Faulted t, w)
      end
  | AtUnlock =>
      let cl := mkClient (disp (self t)) (info (self t)) false in
      Some (mkThread AtDecode (target t) cl (stub t) (status t), w)
  | AtDecode =>
      match Query_finish (self t) (status t) w with
      | Returns r w' => Some (at_pc (Finished r) t, w')
      | Panics msg => Some (at_pc (Panicked msg) t, w)
      | _ => Some (at_pc Faulted t, w)
      end
  | Finished _ | Panicked _ | Faulted => None
  end.

(** The goroutines and the world they share. *)
Record Config := mkConfig {
  threads : list Thread;
  world : World
}.

(** Goroutine [n] makes a step. *)
Definition step (n : nat) (c : Config) : option Config :=
  t ← threads c !! n;
  '(t', w') ← thread_step t (world c);
  Some (mkConfig (<[n := t']> (threads c)) w').

(** A schedule names the goroutine to move at each step. *)
Fixpoint run (sched : list nat) (c : Config) : option Config :=
  match sched with
  | [] => Some c
  | n :: sched => c' ← step n c; run sched c'
  end.

(** The goroutines whose round trip is in flight. *)
Definition is_in_flight (t : Thread) : bool :=
  match pc t with InFlight => true | _ => false end.
Definition in_flight (c : Config) : list Thread :=
  filter (λ t, is_in_flight t) (threads c).

(** What goroutine [n] has returned, if it has. *)
Definition returned (n : nat) (c : Config) : option (Info * error) :=
  t ← threads c !! n;
  match pc t with Finished r => Some r | _ => None end.
End Goroutines.

(** ** The garbage collector *)

(** One visit of the collector to the object [a], when the program can
    still reach the objects [roots]: an unreachable object that carries the
    finalizer has it cleared and run, as [runtime.SetFinalizer] documents.
    The result tells whether the finalizer ran. *)
Definition collect (roots : gset addr) (a : addr) : M bool := λ w,
  if decide (a ∈ finalizers w ∧ a ∉ roots) then
    (modify (set_finalizers (λ s, s ∖ {[a]}));; finalizer a;; mret true) w
  else Returns false w.

(** What happens in the life of a program that uses the package. *)
Inductive Action : Type :=
| Construct (x : XEnv)
| Call (client : ptr) (srv : RoundTrip)
| Collect (roots : gset addr) (a : addr).

Section Life.
Context {codes : SaverCodes}.

(** One action; the result lists the objects whose finalizer it ran. *)
Definition act (e : Action) : M (list addr) :=
  match e with
  | Construct x => NewClient x;; mret []
  | Call client srv => Query_at client srv;; mret []
  | Collect roots a =>
      ran ← collect roots a;
      mret (if ran : bool then [a] else [])
  end.

Fixpoint life (es : list Action) : M (list addr) :=
  match es with
  | [] => mret []
  | e :: es => l ← act e; l' ← life es; mret (l ++ l')
  end.
End Life.


(** ** The command [xss-query] *)

(** [%v] of a [bool] *)
Definition bool_String (b : bool) : string := if b then "true" else "false".

Section Command.
Context {codes : SaverCodes}.

(** [time.Duration.String] of Go's library, by which [%v] prints a
    duration; it is not part of the repository. *)
Variable Duration_String : Duration → string.

(** [func main()] of [cmd/xss-query]; [func Example()] of the package's
    test file has the same body.  The result is the lines written to the
    standard output, each [Printf] ending its line; [panic(err)] panics with
    the message of [err]. *)
Definition main (x : XEnv) (srv : RoundTrip) : M (list string) :=
  '(client, err) ← NewClient x;
  match err with
  | Some msg => panic msg
  | None =>
      '(info, err) ← Query_at client srv;
      match err with
      | Some msg => panic msg
      | None =>
          mret [ "Enabled: " +:+ bool_String (Enabled info);
                 "Active: " +:+ bool_String (Active info);
                 "Kind: " +:+ String (Kind_ info);
                 "Countdown: " +:+ Duration_String (Countdown info);
                 "ActiveTime: " +:+ Duration_String (ActiveTime info);
                 "IdleTime: " +:+ Duration_String (IdleTime info) ]
      end
  end.
End Command.

(** ** Inputs the properties are tried on *)

(** A round trip that returns the status [st] and leaves [reply] in the
    buffer, whatever was there. *)
Definition answer (st : Status) (reply : XScreenSaverInfo) : RoundTrip :=
  λ _, (st, reply).

(** The world after [NewClient] has succeeded in the empty world.  The
    object, its display and its buffer all have address 1. *)
Definition world1 : World :=
  match NewClient XEnv_ok World_empty with
  | Returns _ w => w
  | _ => World_empty
  end.
Definition client1 : Client :=
  mkClient (Some 1%positive) (Some 1%positive) false.

(** The saver is on, an external client draws it. *)
Definition reply_on : XScreenSaverInfo := mkXInfo 1 2 5000 1000.
(** The saver is off and starts in seven seconds. *)
Definition reply_off : XScreenSaverInfo := mkXInfo 0 0 7000 25.
(** The saver is disabled; the other fields hold what they hold. *)
Definition reply_disabled : XScreenSaverInfo := mkXInfo 3 1 4242 86400000.
(** A state code that is none of the three: 2, [ScreenSaverCycle] in the
    header. *)
Definition reply_cycle : XScreenSaverInfo := mkXInfo 2 1 5000 1000.
(** A kind code that is none of the three. *)
Definition reply_kind3 : XScreenSaverInfo := mkXInfo 0 3 7000 25.
(** The saver is on since [max_millis + 1] milliseconds. *)
Definition reply_since_big : XScreenSaverInfo :=
  mkXInfo 1 2 9223372036855 1000.
(** An idle time of [max_millis + 1] milliseconds. *)
Definition reply_idle_big : XScreenSaverInfo := mkXInfo 0 0 7000 9223372036855.

(** Environments in which construction goes wrong: no display, no
    extension, no memory for the buffer. *)
Definition XEnv_no_display : XEnv := mkXEnv false 1 (Some (mkXInfo 0 0 0 0)).
Definition XEnv_no_extension : XEnv := mkXEnv true 0 (Some (mkXInfo 0 0 0 0)).
Definition XEnv_no_memory : XEnv := mkXEnv true 1 None.

(** A stand-in for [time.Duration.String] where one is needed to run
    [main]: the count of nanoseconds in decimal. *)
Definition Duration_shown (d : Duration) : string := pretty d +:+ "ns".

(** ** Proof steps used throughout *)

(** Unfold the monad. *)
Ltac run_M :=
  unfold mbind, M_bind, mret, M_ret, modify, get, panic, fault, block.

(** Unfold [NewClient] down to the world. *)
Ltac run_NewClient :=
  unfold NewClient, XOpenDisplay, XScreenSaverQueryExtension,
    XScreenSaverAllocInfo, new_Client, SetFinalizer; run_M.

(** Decide every comparison of codes in sight. *)
Ltac cases_eqb :=
  repeat match goal with
  | |- context [?a =? ?b] => destruct (Z.eqb_spec a b)
  | H : context [?a =? ?b] |- _ => destruct (Z.eqb_spec a b)
  end.

(** * Properties *)

(** ** Durations *)

Lemma wrap64_small z : int64_min ≤ z ≤ int64_max → wrap64 z = z.
Proof.
  unfold int64_min, int64_max, wrap64. intros Hz.
  rewrite Z.mod_small; lia.
Qed.

Lemma wrap64_range z : int64_min ≤ wrap64 z ≤ int64_max.
Proof.
  unfold int64_min, int64_max, wrap64.
  pose proof (Z.mod_pos_bound (z + 2 ^ 63) (2 ^ 64)). lia.
Qed.

(** Up to [max_millis] milliseconds the conversion of [Query] is exact. *)
Lemma millis_exact v : 0 ≤ v ≤ max_millis → millis v = v * Millisecond.
Proof.
  unfold max_millis, millis, Duration_mul, Duration_of. intros Hv.
  assert (HM : Millisecond = 1000000) by reflexivity. rewrite HM.
  rewrite (wrap64_small v) by (unfold int64_min, int64_max; lia).
  apply wrap64_small. unfold int64_min, int64_max. lia.
Qed.

(** Every count that fits 32 bits, as the X protocol sends them, is within
    the bound. *)
Lemma card32_within_max_millis v : 0 ≤ v < 2 ^ 32 → 0 ≤ v ≤ max_millis.
Proof. unfold max_millis. lia. Qed.

(** Beyond it the product leaves [int64], so the bound is the best one. *)
Lemma millis_inexact v : max_millis < v → millis v ≠ v * Millisecond.
Proof.
  unfold max_millis, millis, Duration_mul. intros Hv Heq.
  pose proof (wrap64_range (Duration_of v * Millisecond)) as Hr.
  rewrite Heq in Hr.
  unfold int64_max, Millisecond, Microsecond, Nanosecond in Hr.
  lia.
Qed.

(** ** [Query], one call at a time *)

Section Sequential.
Context {codes : SaverCodes}.

(** On a live client [Query] makes the round trip and ends in
    [Query_finish] on the reply. *)
Lemma Query_live cl w raw srv :
  live cl w raw →
  ∃ a, info cl = Some a ∧
    Query cl srv w =
      Returns
        (if (srv raw).1 =? 0 then (Info_zero, Errorf "Error querying XSS.")
         else (Query_decode (srv raw).2, None))
        (count_trip (set_buffers <[a := (srv raw).2]> w)).
Proof.
  intros [(d & Hd & Hin) [(a & Ha & Hbuf) Hm]].
  destruct cl as [dp ip m]; simpl in *; subst.
  exists a. split; [done|].
  unfold Query, Query_locked, Query_finish, QueryInfo. run_M. simpl.
  rewrite decide_True by done. rewrite Hbuf.
  destruct (srv raw) as [st raw'] eqn:Hsrv. simpl.
  destruct (st =? 0); [done|].
  simpl. rewrite lookup_insert_eq. done.
Qed.

(** [client.Query()] copies the receiver out of the object. *)
Lemma Query_at_object c cl srv w :
  objects w !! c = Some cl → Query_at (Some c) srv w = Query cl srv w.
Proof. intros Hc. unfold Query_at, deref. run_M. simpl. by rewrite Hc. Qed.
End Sequential.

(** ** Construction *)

(** A client that [NewClient] returns is an object of the heap, and it is
    live when its buffer could be allocated. *)
Lemma NewClient_live x w c w' g :
  NewClient x w = Returns (Some c, None) w' →
  alloc x = Some g →
  ∃ cl, objects w' !! c = Some cl ∧ live cl w' g.
Proof.
  unfold NewClient, XOpenDisplay, XScreenSaverQueryExtension,
    XScreenSaverAllocInfo, new_Client, SetFinalizer.
  run_M. intros HN Hg. rewrite Hg in HN.
  destruct (can_open x); [|done]. simpl in HN.
  rewrite decide_True in HN by set_solver.
  destruct (extension x =? 0); [done|].
  injection HN as <- <-. simpl.
  eexists. split; [apply lookup_insert_eq|].
  repeat split; simpl.
  - eexists. split; [done|]. set_solver.
  - eexists. split; [done|]. apply lookup_insert_eq.
Qed.

Lemma NewClient_world1 :
  NewClient XEnv_ok World_empty = Returns (Some 1%positive, None) world1.
Proof. reflexivity. Qed.

Lemma client1_object : objects world1 !! 1%positive = Some client1.
Proof. reflexivity. Qed.

Lemma client1_live : live client1 world1 (mkXInfo 0 0 0 0).
Proof.
  destruct (NewClient_live _ _ _ _ _ NewClient_world1 eq_refl)
    as (cl & Hcl & Hlive).
  rewrite client1_object in Hcl. by injection Hcl as <-.
Qed.

(** ** Decoding *)

Section Decoding.
Context {codes : SaverCodes}.

(** The state switch and the kind switch write different fields. *)
Lemma Query_decode_IdleTime raw :
  IdleTime (Query_decode raw) = millis (idle raw).
Proof. unfold Query_decode. cases_eqb; reflexivity. Qed.

Lemma Query_decode_on raw :
  state raw = ScreenSaverOn →
  Enabled (Query_decode raw) = true ∧ Active (Query_decode raw) = true ∧
  ActiveTime (Query_decode raw) = millis (til_or_since raw) ∧
  Countdown (Query_decode raw) = 0.
Proof. intros Hs. unfold Query_decode. cases_eqb; done. Qed.

Lemma Query_decode_off raw :
  state raw = ScreenSaverOff →
  Enabled (Query_decode raw) = true ∧ Active (Query_decode raw) = false ∧
  Countdown (Query_decode raw) = millis (til_or_since raw) ∧
  ActiveTime (Query_decode raw) = 0.
Proof.
  intros Hs. pose proof state_codes_distinct as (Hoo & _ & _).
  unfold Query_decode. cases_eqb; try done; congruence.
Qed.

Lemma Query_decode_disabled raw :
  state raw = ScreenSaverDisabled →
  Enabled (Query_decode raw) = false ∧ Active (Query_decode raw) = false ∧
  Countdown (Query_decode raw) = 0 ∧ ActiveTime (Query_decode raw) = 0.
Proof.
  intros Hs. pose proof state_codes_distinct as (_ & Hod & Hfd).
  unfold Query_decode. cases_eqb; try done; congruence.
Qed.

(** No case of the state switch matches: the four fields it writes keep
    their zero values. *)
Lemma Query_decode_other_state raw :
  state raw ≠ ScreenSaverOn → state raw ≠ ScreenSaverOff →
  state raw ≠ ScreenSaverDisabled →
  Enabled (Query_decode raw) = false ∧ Active (Query_decode raw) = false ∧
  Countdown (Query_decode raw) = 0 ∧ ActiveTime (Query_decode raw) = 0.
Proof. intros Hon Hoff Hdis. unfold Query_decode. cases_eqb; done. Qed.

(** No case of the kind switch matches: [Kind] keeps its zero value, and the
    zero value of [Kind] is [Blanked]. *)
Lemma Query_decode_other_kind raw :
  kind raw ≠ ScreenSaverBlanked → kind raw ≠ ScreenSaverInternal →
  kind raw ≠ ScreenSaverExternal →
  Kind_ (Query_decode raw) = Blanked.
Proof. intros Hb Hi He. unfold Query_decode. cases_eqb; done. Qed.

(** The kind code has no part in the other five fields. *)
Lemma Query_decode_kind_independent raw k :
  let raw' := mkXInfo (state raw) k (til_or_since raw) (idle raw) in
  set_Kind 0 (Query_decode raw') = set_Kind 0 (Query_decode raw).
Proof. unfold Query_decode. simpl. cases_eqb; reflexivity. Qed.

Lemma Query_decode_Active_Enabled raw :
  Active (Query_decode raw) = true → Enabled (Query_decode raw) = true.
Proof. unfold Query_decode. cases_eqb; done. Qed.

(** What a call of [Query] that returns has returned: the error of line 123
    with the zero [Info], or no error with a decoded buffer. *)
Lemma Query_returns cl srv w i e w' :
  Query cl srv w = Returns (i, e) w' →
  (i = Info_zero ∧ e = Errorf "Error querying XSS.") ∨
  (∃ raw, i = Query_decode raw ∧ e = None).
Proof.
  unfold Query, Query_locked, Query_finish, QueryInfo. run_M.
  destruct (disp cl) as [d|]; [|done].
  destruct (mutex cl); [done|]. simpl.
  destruct (decide (d ∈ displays w)); [|done].
  destruct (info cl) as [a|]; [|done].
  destruct (buffers w !! a) as [buf|]; [|done].
  destruct (srv buf) as [st reply]. simpl.
  destruct (st =? 0).
  - intros [= <- <- <-]. by left.
  - simpl. rewrite lookup_insert_eq. intros [= <- <- <-]. right. by eexists.
Qed.
End Decoding.

(** ** [Query] on a live client *)

Section Calls.
Context {codes : SaverCodes}.

(** The round trip succeeded: no error, the reply decoded, one trip more. *)
Lemma Query_success cl w raw srv st reply :
  live cl w raw → srv raw = (st, reply) → st ≠ 0 →
  ∃ w', Query cl srv w = Returns (Query_decode reply, None) w' ∧
        trips w' = S (trips w).
Proof.
  intros Hlive Hsrv Hst.
  destruct (Query_live cl w raw srv Hlive) as (a & _ & HQ).
  rewrite Hsrv in HQ. simpl in HQ.
  apply Z.eqb_neq in Hst. rewrite Hst in HQ.
  eexists. split; [exact HQ|reflexivity].
Qed.

(** C4, as amended: after a successful round trip, a recognized state code
    fills the result by the table: on gives Enabled, Active, Countdown zero
    and ActiveTime from [til_or_since]; off gives Enabled, not Active,
    ActiveTime zero and Countdown from [til_or_since]; disabled gives
    neither Enabled nor Active and both times zero, whatever the other raw
    fields are.  The time taken from [til_or_since] is that count of
    milliseconds exactly as long as the count is at most [max_millis]. *)
Theorem Query_decode_table_exact cl w raw srv st reply :
  live cl w raw → srv raw = (st, reply) → st ≠ 0 →
  ∃ i w', Query cl srv w = Returns (i, None) w' ∧
    (state reply = ScreenSaverOn →
       Enabled i = true ∧ Active i = true ∧ Countdown i = 0 ∧
       (0 ≤ til_or_since reply ≤ max_millis →
          ActiveTime i = til_or_since reply * Millisecond)) ∧
    (state reply = ScreenSaverOff →
       Enabled i = true ∧ Active i = false ∧ ActiveTime i = 0 ∧
       (0 ≤ til_or_since reply ≤ max_millis →
          Countdown i = til_or_since reply * Millisecond)) ∧
    (state reply = ScreenSaverDisabled →
       Enabled i = false ∧ Active i = false ∧
       Countdown i = 0 ∧ ActiveTime i = 0).
Proof.
  intros Hlive Hsrv Hst.
  destruct (Query_success _ _ _ _ _ _ Hlive Hsrv Hst) as (w' & HQ & _).
  exists (Query_decode reply), w'. split; [exact HQ|].
  split_and!.
  - intros Hon.
    destruct (Query_decode_on reply Hon) as (He & Ha & Hat & Hc).
    split_and!; [exact He|exact Ha|exact Hc|].
    intros Hbound. rewrite Hat. by apply millis_exact.
  - intros Hoff.
    destruct (Query_decode_off reply Hoff) as (He & Ha & Hc & Hat).
    split_and!; [exact He|exact Ha|exact Hat|].
    intros Hbound. rewrite Hc. by apply millis_exact.
  - apply Query_decode_disabled.
Qed.

(** C5: in every [Info] that [Query] returns, Active implies Enabled. *)
Theorem Query_Active_implies_Enabled cl srv w i e w' :
  Query cl srv w = Returns (i, e) w' → Active i = true → Enabled i = true.
Proof.
  intros HQ. apply Query_returns in HQ as [[-> _]|(raw & -> & _)].
  - discriminate.
  - apply Query_decode_Active_Enabled.
Qed.

(** C6, as amended: after a successful round trip the idle time is the raw
    count of milliseconds exactly, as long as the count is at most
    [max_millis] = 9223372036854, which every 32-bit count is. *)
Theorem Query_IdleTime_exact cl w raw srv st reply :
  live cl w raw → srv raw = (st, reply) → st ≠ 0 →
  0 ≤ idle reply ≤ max_millis →
  ∃ i w', Query cl srv w = Returns (i, None) w' ∧
          IdleTime i = idle reply * Millisecond.
Proof.
  intros Hlive Hsrv Hst Hidle.
  destruct (Query_success _ _ _ _ _ _ Hlive Hsrv Hst) as (w' & HQ & _).
  exists (Query_decode reply), w'. split; [exact HQ|].
  rewrite Query_decode_IdleTime. by apply millis_exact.
Qed.

(** C7: when the round trip reports status 0, the function literal has
    unlocked the mutex on its way out, and [Query] returns the error of
    line 123 with the zero [Info], whatever the buffer holds. *)
Theorem Query_round_trip_failure cl w raw srv reply :
  live cl w raw → srv raw = (0, reply) →
  ∃ d cl' w',
    disp cl = Some d ∧
    Query_locked cl d srv w = Returns (0, cl') w' ∧ mutex cl' = false ∧
    Query cl srv w = Returns (Info_zero, Errorf "Error querying XSS.") w'.
Proof.
  intros [(d & Hd & Hin) [(a & Ha & Hbuf) Hm]] Hsrv.
  destruct cl as [dp ip m]; simpl in *; subst.
  exists d, (mkClient (Some d) (Some a) false),
    (count_trip (set_buffers <[a := reply]> w)).
  split; [done|].
  assert (HL : Query_locked (mkClient (Some d) (Some a) false) d srv w =
    Returns (0, mkClient (Some d) (Some a) false)
      (count_trip (set_buffers <[a := reply]> w))).
  { unfold Query_locked, QueryInfo. run_M. simpl.
    rewrite decide_True by done. by rewrite Hbuf, Hsrv. }
  split; [exact HL|]. split; [done|].
  unfold Query. simpl. run_M. by rewrite HL.
Qed.

(** C8: a [Client] whose [disp] is nil, as the zero value has it, makes
    [Query] panic, called on the value or through a pointer to it; and the
    nil pointer that a failed [NewClient] returns makes the call panic
    too. *)
Theorem Query_unconstructed_panics cl srv w :
  disp cl = None →
  Query cl srv w =
    Panics "Client instances must be created with NewClient." ∧
  (∀ c, objects w !! c = Some cl →
     Query_at (Some c) srv w =
       Panics "Client instances must be created with NewClient.") ∧
  Query_at None srv w =
    Panics "invalid memory address or nil pointer dereference".
Proof.
  intros Hd.
  assert (HQ : Query cl srv w =
    Panics "Client instances must be created with NewClient.")
    by (unfold Query; by rewrite Hd).
  split; [exact HQ|]. split; [|reflexivity].
  intros c Hc. by rewrite (Query_at_object c cl).
Qed.

(** C10: after a successful round trip [Query] returns a nil error for
    every state code and every kind code, with the idle time converted
    from the raw field; when the state code is none of the three, Enabled
    and Active are false and Countdown and ActiveTime are zero. *)
Theorem Query_success_no_error cl w raw srv st reply :
  live cl w raw → srv raw = (st, reply) → st ≠ 0 →
  ∃ i w', Query cl srv w = Returns (i, None) w' ∧
    IdleTime i = millis (idle reply) ∧
    (state reply ≠ ScreenSaverOn → state reply ≠ ScreenSaverOff →
     state reply ≠ ScreenSaverDisabled →
       Enabled i = false ∧ Active i = false ∧
       Countdown i = 0 ∧ ActiveTime i = 0).
Proof.
  intros Hlive Hsrv Hst.
  destruct (Query_success _ _ _ _ _ _ Hlive Hsrv Hst) as (w' & HQ & _).
  exists (Query_decode reply), w'. split; [exact HQ|].
  split; [apply Query_decode_IdleTime|apply Query_decode_other_state].
Qed.

(** C2, as amended: after a successful round trip, a state code that is none
    of the three is no error: [Query] returns nil and the [Info] it returns
    for the code disabled with the same other fields, Enabled and Active
    false. *)
Theorem Query_unrecognized_state_as_disabled cl w raw srv st reply :
  live cl w raw → srv raw = (st, reply) → st ≠ 0 →
  state reply ≠ ScreenSaverOn → state reply ≠ ScreenSaverOff →
  state reply ≠ ScreenSaverDisabled →
  ∃ i w', Query cl srv w = Returns (i, None) w' ∧
    Enabled i = false ∧ Active i = false ∧
    i = Query_decode
          (mkXInfo ScreenSaverDisabled (kind reply) (til_or_since reply)
             (idle reply)).
Proof.
  intros Hlive Hsrv Hst Hon Hoff Hdis.
  destruct (Query_success _ _ _ _ _ _ Hlive Hsrv Hst) as (w' & HQ & _).
  exists (Query_decode reply), w'. split; [exact HQ|].
  destruct (Query_decode_other_state reply Hon Hoff Hdis) as (He & Ha & _).
  split; [exact He|]. split; [exact Ha|].
  pose proof state_codes_distinct as (_ & Hod & Hfd).
  unfold Query_decode. simpl. cases_eqb; try done; congruence.
Qed.

(** C3, what the code does: after a successful round trip, a kind code that
    is none of the three leaves [Kind] at its zero value, which is
    [Blanked] and prints as blanked; no error is returned. *)
Theorem Query_unrecognized_kind_Blanked cl w raw srv st reply :
  live cl w raw → srv raw = (st, reply) → st ≠ 0 →
  kind reply ≠ ScreenSaverBlanked → kind reply ≠ ScreenSaverInternal →
  kind reply ≠ ScreenSaverExternal →
  ∃ i w', Query cl srv w = Returns (i, None) w' ∧
    Kind_ i = Blanked ∧ String (Kind_ i) = "blanked".
Proof.
  intros Hlive Hsrv Hst Hb Hi He.
  destruct (Query_success _ _ _ _ _ _ Hlive Hsrv Hst) as (w' & HQ & _).
  exists (Query_decode reply), w'. split; [exact HQ|].
  rewrite (Query_decode_other_kind reply Hb Hi He). done.
Qed.
End Calls.

(** ** The properties at the sample inputs, with the header's codes *)

Lemma Query_decode_table_exact_witness :
  ∃ i w',
    Query (codes := saver_h) client1 (answer 1 reply_on) world1 =
      Returns (i, None) w' ∧
    Enabled i = true ∧ Active i = true ∧ Countdown i = 0 ∧
    ActiveTime i = 5000 * Millisecond.
Proof.
  destruct (Query_decode_table_exact (codes := saver_h) client1 world1 _
              (answer 1 reply_on) 1 reply_on client1_live eq_refl
              ltac:(discriminate))
    as (i & w' & HQ & Hon & _).
  destruct (Hon eq_refl) as (He & Ha & Hc & Hat).
  exists i, w'. split; [exact HQ|].
  split; [exact He|]. split; [exact Ha|]. split; [exact Hc|].
  apply Hat. unfold max_millis. simpl. lia.
Defined.

(** C4, the claim as stated fails: the saver is on and [til_or_since] is an
    [unsigned long] of [max_millis + 1] milliseconds; the active time comes
    back negative, not as that count of milliseconds. *)
Lemma Query_ActiveTime_wraps :
  well_typed reply_since_big = true ∧
  state reply_since_big = ScreenSaverOn (SaverCodes := saver_h) ∧
  ∃ i w',
    Query (codes := saver_h) client1 (answer 1 reply_since_big) world1 =
      Returns (i, None) w' ∧
    Enabled i = true ∧ Active i = true ∧
    ActiveTime i = -9223372036854551616 ∧
    ActiveTime i ≠ til_or_since reply_since_big * Millisecond.
Proof.
  split; [reflexivity|]. split; [reflexivity|].
  exists (Query_decode (codes := saver_h) reply_since_big),
    (count_trip (set_buffers <[1%positive := reply_since_big]> world1)).
  split; [vm_compute; reflexivity|].
  split; [reflexivity|]. split; [reflexivity|]. split; [reflexivity|].
  vm_compute. discriminate.
Qed.

Lemma Query_Active_implies_Enabled_witness :
  ∃ i e w',
    Query (codes := saver_h) client1 (answer 1 reply_on) world1 =
      Returns (i, e) w' ∧
    Active i = true ∧ Enabled i = true.
Proof.
  exists (Query_decode (codes := saver_h) reply_on), None,
    (count_trip (set_buffers <[1%positive := reply_on]> world1)).
  assert (HQ : Query (codes := saver_h) client1 (answer 1 reply_on) world1 =
    Returns (Query_decode (codes := saver_h) reply_on, None)
      (count_trip (set_buffers <[1%positive := reply_on]> world1)))
    by (vm_compute; reflexivity).
  split; [exact HQ|]. split; [reflexivity|].
  exact (Query_Active_implies_Enabled (codes := saver_h) _ _ _ _ _ _ HQ
           eq_refl).
Defined.

Lemma Query_IdleTime_exact_witness :
  ∃ i w',
    Query (codes := saver_h) client1 (answer 1 reply_disabled) world1 =
      Returns (i, None) w' ∧
    IdleTime i = 86400000 * Millisecond.
Proof.
  apply (Query_IdleTime_exact (codes := saver_h) client1 world1 _
           (answer 1 reply_disabled) 1 reply_disabled client1_live eq_refl).
  - discriminate.
  - unfold max_millis. simpl. lia.
Defined.

(** C6, the claim as stated fails: an [unsigned long] idle count of
    [max_millis + 1] milliseconds comes back as a negative duration. *)
Lemma Query_IdleTime_wraps :
  well_typed reply_idle_big = true ∧
  ∃ i w',
    Query (codes := saver_h) client1 (answer 1 reply_idle_big) world1 =
      Returns (i, None) w' ∧
    IdleTime i = -9223372036854551616 ∧
    IdleTime i ≠ idle reply_idle_big * Millisecond.
Proof.
  split; [reflexivity|].
  exists (Query_decode (codes := saver_h) reply_idle_big),
    (count_trip (set_buffers <[1%positive := reply_idle_big]> world1)).
  split; [vm_compute; reflexivity|]. split; [reflexivity|].
  vm_compute. discriminate.
Qed.

Lemma Query_round_trip_failure_witness :
  ∃ d cl' w',
    disp client1 = Some d ∧
    Query_locked client1 d (answer 0 reply_on) world1 = Returns (0, cl') w' ∧
    mutex cl' = false ∧
    Query (codes := saver_h) client1 (answer 0 reply_on) world1 =
      Returns (Info_zero, Errorf "Error querying XSS.") w'.
Proof.
  exact (Query_round_trip_failure (codes := saver_h) client1 world1 _
           (answer 0 reply_on) reply_on client1_live eq_refl).
Defined.

Lemma Query_unconstructed_panics_witness :
  Query (codes := saver_h) Client_zero (answer 1 reply_on) World_empty =
    Panics "Client instances must be created with NewClient." ∧
  Query_at (codes := saver_h) None (answer 1 reply_on) World_empty =
    Panics "invalid memory address or nil pointer dereference".
Proof.
  destruct (Query_unconstructed_panics (codes := saver_h) Client_zero
              (answer 1 reply_on) World_empty eq_refl) as (HQ & _ & Hnil).
  split; [exact HQ|exact Hnil].
Defined.

Lemma Query_success_no_error_witness :
  ∃ i w',
    Query (codes := saver_h) client1 (answer 1 reply_cycle) world1 =
      Returns (i, None) w' ∧
    IdleTime i = 1000 * Millisecond ∧
    Enabled i = false ∧ Active i = false ∧
    Countdown i = 0 ∧ ActiveTime i = 0.
Proof.
  destruct (Query_success_no_error (codes := saver_h) client1 world1 _
              (answer 1 reply_cycle) 1 reply_cycle client1_live eq_refl
              ltac:(discriminate))
    as (i & w' & HQ & Hidle & Hother).
  exists i, w'. split; [exact HQ|]. split; [exact Hidle|].
  apply Hother; discriminate.
Defined.

(** C2, the claim as stated fails: the state code 2 is none of the three,
    and [Query] returns a nil error with the [Info] of a disabled saver. *)
Lemma Query_cycle_state_no_error :
  (state reply_cycle ≠ ScreenSaverOn (SaverCodes := saver_h) ∧
   state reply_cycle ≠ ScreenSaverOff (SaverCodes := saver_h) ∧
   state reply_cycle ≠ ScreenSaverDisabled (SaverCodes := saver_h)) ∧
  ∃ w',
    Query (codes := saver_h) client1 (answer 1 reply_cycle) world1 =
      Returns (mkInfo false false Internal 0 0 (1000 * Millisecond), None) w'.
Proof.
  split; [repeat split; discriminate|].
  eexists. vm_compute. reflexivity.
Qed.

Lemma Query_unrecognized_state_as_disabled_witness :
  ∃ i w',
    Query (codes := saver_h) client1 (answer 1 reply_cycle) world1 =
      Returns (i, None) w' ∧
    Enabled i = false ∧ Active i = false ∧
    i = Query_decode (codes := saver_h) (mkXInfo 3 1 5000 1000).
Proof.
  apply (Query_unrecognized_state_as_disabled (codes := saver_h) client1
           world1 _ (answer 1 reply_cycle) 1 reply_cycle client1_live
           eq_refl); discriminate.
Defined.

Lemma Query_unrecognized_kind_Blanked_witness :
  ∃ i w',
    Query (codes := saver_h) client1 (answer 1 reply_kind3) world1 =
      Returns (i, None) w' ∧
    Kind_ i = Blanked ∧ String (Kind_ i) = "blanked".
Proof.
  apply (Query_unrecognized_kind_Blanked (codes := saver_h) client1 world1 _
           (answer 1 reply_kind3) 1 reply_kind3 client1_live eq_refl);
    discriminate.
Defined.

(** ** Goroutines *)

Section Interleaving.
Context {codes : SaverCodes}.

Lemma run_cons n sched c c' :
  step n c = Some c' → run (n :: sched) c = run sched c'.
Proof. intros Hs. simpl. by rewrite Hs. Qed.

(** The steps of a goroutine, one lemma per program point. *)
Lemma step_AtCall c cl d srv st0 cl0 w :
  objects w !! c = Some cl → disp cl = Some d →
  thread_step (mkThread AtCall (Some c) cl0 srv st0) w =
    Some (mkThread AtLock (Some c) cl srv st0, w).
Proof. intros Hc Hd. unfold thread_step, deref. simpl. by rewrite Hc, Hd. Qed.

Lemma step_AtLock p dp ip srv st0 w :
  thread_step (mkThread AtLock p (mkClient dp ip false) srv st0) w =
    Some (mkThread AtRequest p (mkClient dp ip true) srv st0, w).
Proof. reflexivity. Qed.

Lemma step_AtRequest p cl srv st0 w :
  thread_step (mkThread AtRequest p cl srv st0) w =
    Some (mkThread InFlight p cl srv st0, w).
Proof. reflexivity. Qed.

Lemma step_InFlight p d a m srv st0 w buf st reply :
  d ∈ displays w → buffers w !! a = Some buf → srv buf = (st, reply) →
  thread_step (mkThread InFlight p (mkClient (Some d) (Some a) m) srv st0) w =
    Some (mkThread AtUnlock p (mkClient (Some d) (Some a) m) srv st,
          count_trip (set_buffers <[a := reply]> w)).
Proof.
  intros Hd Ha Hsrv. unfold thread_step, QueryInfo. simpl.
  rewrite decide_True by done. by rewrite Ha, Hsrv.
Qed.

Lemma step_AtUnlock p dp ip m srv st0 w :
  thread_step (mkThread AtUnlock p (mkClient dp ip m) srv st0) w =
    Some (mkThread AtDecode p (mkClient dp ip false) srv st0, w).
Proof. reflexivity. Qed.

Lemma step_AtDecode p dp a m srv st w raw :
  st ≠ 0 → buffers w !! a = Some raw →
  thread_step (mkThread AtDecode p (mkClient dp (Some a) m) srv st) w =
    Some (mkThread (Finished (Query_decode raw, None)) p
            (mkClient dp (Some a) m) srv st, w).
Proof.
  intros Hst Ha. apply Z.eqb_neq in Hst.
  unfold thread_step, Query_finish. simpl. rewrite Hst. run_M. simpl.
  by rewrite Ha.
Qed.

(** A goroutine that is waiting for a locked mutex does not move. *)
Lemma step_AtLock_blocked p dp ip srv st0 w :
  thread_step (mkThread AtLock p (mkClient dp ip true) srv st0) w = None.
Proof. reflexivity. Qed.

(** Move the goroutine at the head of the schedule by the lemma [lem]. *)
Ltac sched lem :=
  erewrite run_cons;
  [| unfold step; cbn -[thread_step]; erewrite lem;
     [cbn; reflexivity | try done ..]].

(** Alone, a goroutine takes six steps and returns what [client.Query()]
    returns: the sequential function and the steps agree. *)
Lemma run_alone c cl w raw srv :
  objects w !! c = Some cl → live cl w raw →
  ∃ r w' t,
    Query_at (Some c) srv w = Returns r w' ∧
    run [0; 0; 0; 0; 0; 0]%nat (mkConfig [spawn (Some c) srv] w) =
      Some (mkConfig [t] w') ∧
    pc t = Finished r.
Proof.
  intros Hc Hlive. rewrite (Query_at_object c cl) by done.
  destruct (Query_live cl w raw srv Hlive) as (a' & Ha' & ->).
  destruct Hlive as [(d & Hd & Hin) [(a & Ha & Hbuf) Hm]].
  destruct cl as [dp ip m]; simpl in Hd, Ha, Hm, Ha'; subst.
  injection Ha' as <-. unfold spawn.
  destruct (srv raw) as [st reply] eqn:Hsrv. cbn [fst snd].
  destruct (Z.eqb_spec st 0) as [->|Hst];
    (eexists _, _, _; split; [reflexivity|]);
    sched step_AtCall; sched step_AtLock; sched step_AtRequest;
    sched step_InFlight; sched step_AtUnlock.
  - split; reflexivity.
  - sched step_AtDecode; [|apply lookup_insert_eq]. split; reflexivity.
Qed.

(** C1, what the code does: two goroutines call [Query] on one live client.
    Each locks the mutex of its own copy of the client, so both round trips
    can be in flight at once; and the buffer is read after the unlock, so
    when the second round trip ends before the first goroutine decodes, the
    first one returns the second one's reply. *)
Theorem Query_not_mutually_exclusive c cl w raw srvA srvB stA stB rA rB :
  objects w !! c = Some cl → live cl w raw →
  srvA raw = (stA, rA) → srvB rA = (stB, rB) → stA ≠ 0 →
  (∃ c1, run [0; 0; 0; 1; 1; 1]%nat
           (mkConfig [spawn (Some c) srvA; spawn (Some c) srvB] w) = Some c1 ∧
         length (in_flight c1) = 2%nat) ∧
  (∃ c2, run [0; 0; 0; 0; 0; 1; 1; 1; 1; 1; 0]%nat
           (mkConfig [spawn (Some c) srvA; spawn (Some c) srvB] w) = Some c2 ∧
         returned 0 c2 = Some (Query_decode rB, None) ∧
         trips (world c2) = S (S (trips w))).
Proof.
  intros Hc [(d & Hd & Hin) [(a & Ha & Hbuf) Hm]] HA HB Hst.
  destruct cl as [dp ip m]; simpl in Hd, Ha, Hm; subst. unfold spawn.
  split.
  - eexists. split.
    + sched step_AtCall. sched step_AtLock. sched step_AtRequest.
      sched step_AtCall. sched step_AtLock. sched step_AtRequest.
      reflexivity.
    + reflexivity.
  - eexists. split.
    + sched step_AtCall. sched step_AtLock. sched step_AtRequest.
      sched step_InFlight. sched step_AtUnlock.
      sched step_AtCall. sched step_AtLock. sched step_AtRequest.
      sched step_InFlight; [|apply lookup_insert_eq]. sched step_AtUnlock.
      sched step_AtDecode; [|apply lookup_insert_eq].
      reflexivity.
    + split; reflexivity.
Qed.
End Interleaving.

Lemma Query_not_mutually_exclusive_witness :
  (∃ c1, run (codes := saver_h) [0; 0; 0; 1; 1; 1]%nat
           (mkConfig [spawn (Some 1%positive) (answer 1 reply_on);
                      spawn (Some 1%positive) (answer 1 reply_off)] world1)
           = Some c1 ∧
         length (in_flight c1) = 2%nat) ∧
  (∃ c2, run (codes := saver_h) [0; 0; 0; 0; 0; 1; 1; 1; 1; 1; 0]%nat
           (mkConfig [spawn (Some 1%positive) (answer 1 reply_on);
                      spawn (Some 1%positive) (answer 1 reply_off)] world1)
           = Some c2 ∧
         returned 0 c2 =
           Some (mkInfo true false Blanked (7000 * Millisecond) 0
                   (25 * Millisecond), None) ∧
         trips (world c2) = 2%nat) ∧
  Query_decode (codes := saver_h) reply_on =
    mkInfo true true External 0 (5000 * Millisecond) (1000 * Millisecond).
Proof.
  split; [|split; [|reflexivity]];
    apply (Query_not_mutually_exclusive (codes := saver_h) 1%positive client1
             world1 _ (answer 1 reply_on) (answer 1 reply_off) 1 1 reply_on
             reply_off client1_object client1_live eq_refl eq_refl);
    discriminate.
Defined.

(** ** The finalizer and the collector *)




(** A successful construction, laid out: a fresh display, a buffer when one
    could be allocated, a fresh object with the finalizer set. *)
Lemma NewClient_inv x w c w1 :
  NewClient x w = Returns (Some c, None) w1 →
  ∃ ip bufs,
    (ip = None ∧ bufs = buffers w ∨
     ∃ b g, ip = Some b ∧ bufs = <[b := g]> (buffers w)) ∧
    c = fresh (dom (objects w)) ∧
    w1 = mkWorld ({[fresh (displays w)]} ∪ displays w) bufs
           (<[c := mkClient (Some (fresh (displays w))) ip false]> (objects w))
           ({[c]} ∪ finalizers w) (trips w).
Proof.
  unfold NewClient, XOpenDisplay, XScreenSaverQueryExtension,
    XScreenSaverAllocInfo, new_Client, SetFinalizer. run_M.
  intros HN. repeat case_match; simplify_eq; simpl.
  - eexists _, _. split; [right; by eexists _, _|done].
  - eexists _, _. split; [by left|done].
Qed.


Section Lives.
Context {codes : SaverCodes}.




End Lives.

Section Teardown.
Context {codes : SaverCodes}.

End Teardown.



(** * Further properties of the package *)

(** ** [Kind.String] *)

(** [String] gives unknown for the kinds that are none of the three
    constants, and for those only; and a name other than unknown tells the
    kind. *)
Theorem String_unknown_iff k :
  (String k = "unknown" ↔ k ≠ Blanked ∧ k ≠ Internal ∧ k ≠ External) ∧
  (∀ k', String k = String k' → String k ≠ "unknown" → k = k').
Proof.
  unfold String, Blanked, Internal, External. split.
  - cases_eqb; subst; split; try done; try lia; intros (? & ? & ?); lia.
  - intros k'. cases_eqb; subst; try done; congruence.
Qed.

Section MoreDecoding.
Context {codes : SaverCodes}.

Lemma Query_decode_Kind raw :
  Kind_ (Query_decode raw) = Blanked ∨
  Kind_ (Query_decode raw) = Internal ∨
  Kind_ (Query_decode raw) = External.
Proof. unfold Query_decode. cases_eqb; simpl; auto. Qed.

(** Whatever [Query] returns, the kind in it is one of the three
    constants, and never prints as unknown. *)
Theorem Query_Kind_never_unknown cl srv w i e w' :
  Query cl srv w = Returns (i, e) w' →
  (Kind_ i = Blanked ∨ Kind_ i = Internal ∨ Kind_ i = External) ∧
  String (Kind_ i) ≠ "unknown".
Proof.
  intros HQ.
  assert (Hk : Kind_ i = Blanked ∨ Kind_ i = Internal ∨ Kind_ i = External).
  { apply Query_returns in HQ as [[-> _]|(raw & -> & _)].
    - by left.
    - apply Query_decode_Kind. }
  split; [exact Hk|].
  destruct Hk as [-> | [-> | ->]]; discriminate.
Qed.

(** Whatever [Query] returns, the two times of the saver exclude each
    other: an active saver has no countdown, an inactive one no active
    time, and a saver that is not enabled has neither. *)
Theorem Query_times_exclusive cl srv w i e w' :
  Query cl srv w = Returns (i, e) w' →
  (Active i = true → Countdown i = 0) ∧
  (Active i = false → ActiveTime i = 0) ∧
  (Enabled i = false → Countdown i = 0 ∧ ActiveTime i = 0).
Proof.
  intros HQ. apply Query_returns in HQ as [[-> _]|(raw & -> & _)].
  - done.
  - unfold Query_decode. cases_eqb; simpl; done.
Qed.

(** After a successful round trip whose counts are at most [max_millis],
    the times of the saver are the raw count of milliseconds exactly, and
    no duration is negative. *)
Theorem Query_times_exact cl w raw srv st reply :
  live cl w raw → srv raw = (st, reply) → st ≠ 0 →
  0 ≤ til_or_since reply ≤ max_millis → 0 ≤ idle reply ≤ max_millis →
  ∃ i w', Query cl srv w = Returns (i, None) w' ∧
    (state reply = ScreenSaverOn →
       ActiveTime i = til_or_since reply * Millisecond) ∧
    (state reply = ScreenSaverOff →
       Countdown i = til_or_since reply * Millisecond) ∧
    0 ≤ Countdown i ∧ 0 ≤ ActiveTime i ∧ 0 ≤ IdleTime i.
Proof.
  intros Hlive Hsrv Hst Htil Hidle.
  destruct (Query_success _ _ _ _ _ _ Hlive Hsrv Hst) as (w' & HQ & _).
  exists (Query_decode reply), w'. split; [exact HQ|].
  pose proof (millis_exact _ Htil) as Ht.
  pose proof (millis_exact _ Hidle) as Hi.
  assert (HM : Millisecond = 1000000) by reflexivity.
  split_and!.
  - intros Hon. destruct (Query_decode_on reply Hon) as (_ & _ & -> & _).
    exact Ht.
  - intros Hoff. destruct (Query_decode_off reply Hoff) as (_ & _ & -> & _).
    exact Ht.
  - unfold Query_decode. cases_eqb; simpl; lia.
  - unfold Query_decode. cases_eqb; simpl; lia.
  - rewrite Query_decode_IdleTime. lia.
Qed.
End MoreDecoding.

(** ** [NewClient] *)

(** The two errors of [NewClient].  When no display can be opened it
    returns a nil client with its first error and has acquired nothing: the
    world is as it was.  When the display opens and the extension is
    missing it returns a nil client with its second error, and the display
    it has opened stays open; nothing else was acquired. *)
Theorem NewClient_errors x w :
  (can_open x = false →
     NewClient x w = Returns (None, Errorf "Could not open X display.") w) ∧
  (can_open x = true → extension x = 0 →
     ∃ w', NewClient x w =
             Returns (None, Errorf "XSS extension not active.") w' ∧
           (fresh (displays w) ∉ displays w) ∧
           displays w' = {[fresh (displays w)]} ∪ displays w ∧
           buffers w' = buffers w ∧ objects w' = objects w ∧
           finalizers w' = finalizers w ∧ trips w' = trips w).
Proof.
  split.
  - intros Hx. run_NewClient. by rewrite Hx.
  - intros Hx He. run_NewClient. rewrite Hx, He. simpl.
    rewrite decide_True by set_solver. simpl.
    eexists. split; [reflexivity|]. split; [apply is_fresh|done].
Qed.

(** With a display and the extension, [NewClient] returns a client. *)
Lemma NewClient_succeeds x w :
  can_open x = true → extension x ≠ 0 →
  ∃ c w1, NewClient x w = Returns (Some c, None) w1 ∧ trips w1 = trips w.
Proof.
  intros Hx He. run_NewClient. rewrite Hx. simpl.
  rewrite decide_True by set_solver.
  apply Z.eqb_neq in He. rewrite He. simpl.
  destruct (alloc x); simpl; eexists _, _; split; reflexivity.
Qed.

(** [NewClient] always returns, with a client or with an error and never
    with both or neither; it returns a client exactly when the display
    opens and the extension answers. *)
Theorem NewClient_client_xor_error x w :
  ∃ p e w', NewClient x w = Returns (p, e) w' ∧
    (p = None ↔ e ≠ None) ∧
    (e = None ↔ can_open x = true ∧ extension x ≠ 0).
Proof.
  run_NewClient. destruct (can_open x) eqn:Hx; simpl.
  - rewrite decide_True by set_solver.
    destruct (Z.eqb_spec (extension x) 0) as [He|He]; simpl.
    + eexists _, _, _. split; [reflexivity|]. unfold Errorf.
      split; split; try done. intros [_ ?]. done.
    + destruct (alloc x); simpl; eexists _, _, _;
        (split; [reflexivity|]); split; split; try done.
  - eexists _, _, _. split; [reflexivity|]. unfold Errorf.
    split; split; try done. intros [? _]. done.
Qed.

Section Composition.
Context {codes : SaverCodes}.

(** A client that [NewClient] has returned can be queried at once: after a
    successful round trip [Query] returns the reply decoded and no error,
    having made one round trip. *)
Theorem NewClient_then_Query x w c w1 g srv st reply :
  NewClient x w = Returns (Some c, None) w1 →
  alloc x = Some g → srv g = (st, reply) → st ≠ 0 →
  ∃ w2, Query_at (Some c) srv w1 = Returns (Query_decode reply, None) w2 ∧
        trips w2 = S (trips w).
Proof.
  intros HN Hg Hsrv Hst.
  destruct (NewClient_live _ _ _ _ _ HN Hg) as (cl & Hcl & Hlive).
  destruct (Query_success _ _ _ _ _ _ Hlive Hsrv Hst) as (w2 & HQ & Ht).
  exists w2. rewrite (Query_at_object c cl) by done.
  split; [exact HQ|]. rewrite Ht.
  destruct (NewClient_inv _ _ _ _ HN) as (ip & bufs & _ & _ & ->). done.
Qed.
End Composition.

(** [NewClient] does not look at what [XScreenSaverAllocInfo] returns: when
    the allocation fails it still returns a client and no error, and the
    [info] of that client is nil. *)
Theorem NewClient_unchecked_alloc x w :
  can_open x = true → extension x ≠ 0 → alloc x = None →
  ∃ c d w', NewClient x w = Returns (Some c, None) w' ∧
    objects w' !! c = Some (mkClient (Some d) None false) ∧
    buffers w' = buffers w.
Proof.
  intros Hx He Ha. run_NewClient. rewrite Hx, Ha. simpl.
  rewrite decide_True by set_solver.
  apply Z.eqb_neq in He. rewrite He. simpl.
  eexists _, _, _. split; [reflexivity|]. simpl.
  split; [apply lookup_insert_eq|done].
Qed.

(** Two clients built one after the other share nothing: they are
    different objects with different displays and different buffers, and
    building the second leaves the first as it was. *)
Theorem NewClient_twice_disjoint x1 x2 w c1 w1 c2 w2 g1 g2 :
  NewClient x1 w = Returns (Some c1, None) w1 →
  NewClient x2 w1 = Returns (Some c2, None) w2 →
  alloc x1 = Some g1 → alloc x2 = Some g2 →
  ∃ cl1 cl2,
    objects w2 !! c1 = Some cl1 ∧ objects w2 !! c2 = Some cl2 ∧
    c1 ≠ c2 ∧ disp cl1 ≠ disp cl2 ∧ info cl1 ≠ info cl2 ∧
    live cl1 w2 g1 ∧ live cl2 w2 g2.
Proof.
  intros HN1 HN2 Hg1 Hg2.
  destruct (NewClient_live _ _ _ _ _ HN1 Hg1) as (cl1 & Hcl1 & Hlive1).
  destruct (NewClient_live _ _ _ _ _ HN2 Hg2) as (cl2 & Hcl2 & Hlive2).
  destruct Hlive1 as [(d1 & Hd1 & Hin1) [(a1 & Ha1 & Hbuf1) Hm1]].
  revert HN2 Hcl2 Hlive2. run_NewClient. rewrite Hg2.
  destruct (can_open x2); [|done]. simpl.
  rewrite decide_True by set_solver.
  destruct (extension x2 =? 0); [done|]. simpl.
  intros [= <- <-]. simpl. rewrite lookup_insert_eq.
  intros [= <-] Hlive2.
  assert (Hc : c1 ≠ fresh (dom (objects w1))).
  { intros Heq. apply (is_fresh (dom (objects w1))). rewrite <- Heq.
    by apply elem_of_dom_2 in Hcl1. }
  assert (Hd : d1 ≠ fresh (displays w1)).
  { intros Heq. apply (is_fresh (displays w1)). by rewrite <- Heq. }
  assert (Ha : a1 ≠ fresh (dom (buffers w1))).
  { intros Heq. apply (is_fresh (dom (buffers w1))). rewrite <- Heq.
    by apply elem_of_dom_2 in Hbuf1. }
  exists cl1. eexists. split_and!.
  - rewrite lookup_insert_ne by done. exact Hcl1.
  - done.
  - done.
  - simpl. rewrite Hd1. congruence.
  - simpl. rewrite Ha1. congruence.
  - split_and!; simpl.
    + exists d1. split; [done|set_solver].
    + exists a1. split; [done|]. by rewrite lookup_insert_ne.
    + done.
  - exact Hlive2.
Qed.

(** ** What [Query] does to the world *)

Section Effects.
Context {codes : SaverCodes}.

(** A call of [Query] that returns has made exactly one round trip, with
    no retry; it has written the buffer of its client and no other, and
    has opened, closed, built and finalized nothing. *)
Theorem Query_one_round_trip cl srv w r w' :
  Query cl srv w = Returns r w' →
  trips w' = S (trips w) ∧
  displays w' = displays w ∧ objects w' = objects w ∧
  finalizers w' = finalizers w ∧
  ∃ a, info cl = Some a ∧ is_Some (buffers w !! a) ∧
       is_Some (buffers w' !! a) ∧
       ∀ b, b ≠ a → buffers w' !! b = buffers w !! b.
Proof.
  unfold Query, Query_locked, Query_finish, QueryInfo. run_M.
  destruct (disp cl) as [d|]; [|done].
  destruct (mutex cl); [done|]. simpl.
  destruct (decide (d ∈ displays w)); [|done].
  destruct (info cl) as [a|]; [|done].
  destruct (buffers w !! a) as [buf|] eqn:Hbuf; [|done].
  destruct (srv buf) as [st reply]. simpl.
  assert (Hw : ∀ r0, Returns r0
      (count_trip (set_buffers <[a := reply]> w)) = Returns r w' →
    trips w' = S (trips w) ∧ displays w' = displays w ∧
    objects w' = objects w ∧ finalizers w' = finalizers w ∧
    ∃ a0, Some a = Some a0 ∧ is_Some (buffers w !! a0) ∧
          is_Some (buffers w' !! a0) ∧
          ∀ b, b ≠ a0 → buffers w' !! b = buffers w !! b).
  { intros r0 [= _ <-]. simpl. split_and!; try done.
    exists a. split_and!; [done|by rewrite Hbuf| |].
    - rewrite lookup_insert_eq. by eexists.
    - intros b Hb. by rewrite lookup_insert_ne. }
  destruct (st =? 0); [apply Hw|].
  simpl. rewrite lookup_insert_eq. apply Hw.
Qed.

(** [Query] leaves its client live, the buffer holding what the round trip
    left in it; this holds when the round trip fails too. *)
Lemma Query_keeps_live cl w raw srv :
  live cl w raw →
  ∃ r w', Query cl srv w = Returns r w' ∧ live cl w' (srv raw).2 ∧
          trips w' = S (trips w) ∧ objects w' = objects w.
Proof.
  intros Hlive.
  destruct (Query_live cl w raw srv Hlive) as (a & Ha & HQ).
  eexists _, _. split; [exact HQ|].
  destruct Hlive as [(d & Hd & Hin) [(a' & Ha' & Hbuf) Hm]].
  split; [|done].
  split; [by exists d|]. split; [|done].
  exists a. split; [done|]. simpl. apply lookup_insert_eq.
Qed.

(** A live client can be queried any number of times: every call returns,
    each makes one round trip, and the client is live afterwards. *)
Theorem Query_again_and_again c cl srvs : ∀ w raw,
  objects w !! c = Some cl → live cl w raw →
  ∃ w' raw',
    life (map (Call (Some c)) srvs) w = Returns [] w' ∧
    trips w' = (trips w + length srvs)%nat ∧
    objects w' !! c = Some cl ∧ live cl w' raw'.
Proof.
  induction srvs as [|srv srvs IH]; intros w raw Hc Hlive; simpl.
  - exists w, raw. split_and!; [done|lia|done|done].
  - destruct (Query_keeps_live cl w raw srv Hlive)
      as (r & w1 & HQ & Hlive1 & Ht & Ho).
    destruct (IH w1 (srv raw).2) as (w' & raw' & Hl & Ht' & Hc' & Hlive');
      [by rewrite Ho|done|].
    exists w', raw'. run_M.
    rewrite (Query_at_object c cl) by done. rewrite HQ.
    unfold mbind, M_bind in Hl. rewrite Hl. simpl.
    split_and!; [done|lia|done|done].
Qed.
End Effects.

(** ** Goroutines, whatever the schedule *)

Section Schedules.
Context {codes : SaverCodes}.

(** Move the goroutine at the head of the schedule by the lemma [lem]. *)
Ltac move_by lem :=
  erewrite run_cons;
  [| unfold step; cbn -[thread_step]; erewrite lem;
     [cbn; reflexivity | try done ..]].

(** Two goroutines that call [Query] one after the other, the second
    starting when the first has returned, each get their own reply. *)
Theorem run_one_after_another c cl w raw srvA srvB stA stB rA rB :
  objects w !! c = Some cl → live cl w raw →
  srvA raw = (stA, rA) → srvB rA = (stB, rB) → stA ≠ 0 → stB ≠ 0 →
  ∃ c2, run [0; 0; 0; 0; 0; 0; 1; 1; 1; 1; 1; 1]%nat
          (mkConfig [spawn (Some c) srvA; spawn (Some c) srvB] w) = Some c2 ∧
        returned 0 c2 = Some (Query_decode rA, None) ∧
        returned 1 c2 = Some (Query_decode rB, None) ∧
        trips (world c2) = S (S (trips w)).
Proof.
  intros Hc [(d & Hd & Hin) [(a & Ha & Hbuf) Hm]] HA HB HstA HstB.
  destruct cl as [dp ip m]; simpl in Hd, Ha, Hm; subst. unfold spawn.
  eexists. split.
  - move_by step_AtCall. move_by step_AtLock. move_by step_AtRequest.
    move_by step_InFlight. move_by step_AtUnlock.
    move_by step_AtDecode; [|apply lookup_insert_eq].
    move_by step_AtCall. move_by step_AtLock. move_by step_AtRequest.
    move_by step_InFlight; [|apply lookup_insert_eq]. move_by step_AtUnlock.
    move_by step_AtDecode; [|apply lookup_insert_eq].
    reflexivity.
  - split_and!; reflexivity.
Qed.

(** A step of a goroutine leaves the objects of the heap as they are. *)
Lemma thread_step_objects t w t' w' :
  thread_step t w = Some (t', w') → objects w' = objects w.
Proof.
  unfold thread_step, deref, QueryInfo, Query_finish. run_M.
  intros Hstep. repeat case_match; simplify_eq; done.
Qed.

(** A step of a goroutine that was given the object [c], which holds [cl]:
    if the step leaves it at the lock, its receiver is [cl] as the object
    holds it. *)
Lemma thread_step_AtLock c cl t w t' w' :
  objects w !! c = Some cl → target t = Some c →
  (pc t = AtLock → self t = cl) →
  thread_step t w = Some (t', w') →
  target t' = Some c ∧ (pc t' = AtLock → self t' = cl).
Proof.
  intros Hc Htg Hlock.
  destruct t as [p tg s sv st]; simpl in Htg, Hlock; subst.
  unfold thread_step, deref, QueryInfo, Query_finish. run_M. simpl.
  destruct p; simpl; try rewrite Hc; simpl;
    intros Hstep; repeat case_match; simplify_eq; done.
Qed.

(** The same for a whole schedule. *)
Lemma run_AtLock c cl sched : ∀ cfg cfg',
  objects (world cfg) !! c = Some cl →
  Forall (λ t, target t = Some c ∧ (pc t = AtLock → self t = cl))
    (threads cfg) →
  run sched cfg = Some cfg' →
  objects (world cfg') !! c = Some cl ∧
  Forall (λ t, target t = Some c ∧ (pc t = AtLock → self t = cl))
    (threads cfg').
Proof.
  induction sched as [|n sched IH]; intros cfg cfg' Hc Hts; simpl.
  - by intros [= <-].
  - unfold step at 1.
    destruct (threads cfg !! n) as [t|] eqn:Hn; [|done]. simpl.
    destruct (thread_step t (world cfg)) as [[t' w']|] eqn:Hstep; [|done].
    simpl. intros Hrun.
    destruct (Forall_lookup_1 _ _ _ _ Hts Hn) as [Htg Hlock].
    apply IH in Hrun; [done| |]; simpl.
    + by rewrite (thread_step_objects _ _ _ _ Hstep).
    + apply Forall_insert; [done|].
      by apply (thread_step_AtLock c cl t (world cfg) t' w').
Qed.

(** Any number of goroutines call [Query] on one client, under any
    schedule: a goroutine that comes to [cl.mutex.Lock()] finds the mutex
    free and takes it with its next step, whatever the others hold.  The
    mutex it locks is that of its own copy of the client. *)
Theorem Lock_never_waits c cl w srvs sched cfg :
  objects w !! c = Some cl → mutex cl = false →
  run sched (mkConfig (map (spawn (Some c)) srvs) w) = Some cfg →
  ∀ n t, threads cfg !! n = Some t → pc t = AtLock →
    mutex (self t) = false ∧
    ∃ cfg', step n cfg = Some cfg' ∧
            (pc <$> threads cfg' !! n) = Some AtRequest.
Proof.
  intros Hc Hm Hrun n t Hn Hpc.
  assert (Hinit :
    Forall (λ t, target t = Some c ∧ (pc t = AtLock → self t = cl))
      (map (spawn (Some c)) srvs)).
  { apply Forall_forall. intros t0 (srv & -> & _)%list_elem_of_fmap. done. }
  destruct (run_AtLock c cl sched
              (mkConfig (map (spawn (Some c)) srvs) w) cfg Hc Hinit Hrun)
    as [_ Hts].
  destruct (Forall_lookup_1 _ _ _ _ Hts Hn) as [_ Hself].
  specialize (Hself Hpc).
  split; [by rewrite Hself|].
  unfold step. rewrite Hn. simpl.
  destruct t as [p tg s sv st]; simpl in Hpc, Hself; subst.
  unfold thread_step. simpl. rewrite Hm. simpl. eexists. split; [done|].
  simpl. rewrite list_lookup_insert_eq; [done|].
  by apply lookup_lt_Some in Hn.
Qed.
End Schedules.

(** ** The command *)

Section CommandRuns.
Context {codes : SaverCodes}.
Variable Duration_String : Duration → string.

(** [main] panics with the error it is given and prints nothing: when no
    display opens, when the extension is missing, and when the round trip
    fails. *)
Theorem main_panics_on_error x srv w :
  (can_open x = false →
     main Duration_String x srv w = Panics "Could not open X display.") ∧
  (can_open x = true → extension x = 0 →
     main Duration_String x srv w = Panics "XSS extension not active.") ∧
  (∀ g reply, can_open x = true → extension x ≠ 0 → alloc x = Some g →
     srv g = (0, reply) →
     main Duration_String x srv w = Panics "Error querying XSS.").
Proof.
  split_and!.
  - intros Hx. unfold main. run_NewClient. by rewrite Hx.
  - intros Hx He. unfold main. run_NewClient. rewrite Hx, He. simpl.
    by rewrite decide_True by set_solver.
  - intros g reply Hx He Hg Hsrv.
    destruct (NewClient_succeeds x w Hx He) as (c & w1 & HN & _).
    destruct (NewClient_live _ _ _ _ _ HN Hg) as (cl & Hcl & Hlive).
    destruct (Query_live cl w1 g srv Hlive) as (a & _ & HQ).
    rewrite Hsrv in HQ. simpl in HQ.
    unfold main. run_M. rewrite HN.
    rewrite (Query_at_object c cl) by done. by rewrite HQ.
Qed.

(** When the client is built and the round trip succeeds, [main] prints
    the six fields of the decoded reply, one a line, in the order Enabled,
    Active, Kind, Countdown, ActiveTime, IdleTime, and the kind it prints
    is never unknown. *)
Theorem main_prints_six_lines x srv w g st reply :
  can_open x = true → extension x ≠ 0 → alloc x = Some g →
  srv g = (st, reply) → st ≠ 0 →
  ∃ w',
    main Duration_String x srv w =
      Returns
        [ "Enabled: " +:+ bool_String (Enabled (Query_decode reply));
          "Active: " +:+ bool_String (Active (Query_decode reply));
          "Kind: " +:+ String (Kind_ (Query_decode reply));
          "Countdown: " +:+ Duration_String (Countdown (Query_decode reply));
          "ActiveTime: " +:+
            Duration_String (ActiveTime (Query_decode reply));
          "IdleTime: " +:+ Duration_String (IdleTime (Query_decode reply)) ]
        w' ∧
    String (Kind_ (Query_decode reply)) ≠ "unknown" ∧
    trips w' = S (trips w).
Proof.
  intros Hx He Hg Hsrv Hst.
  destruct (NewClient_succeeds x w Hx He) as (c & w1 & HN & Ht1).
  destruct (NewClient_live _ _ _ _ _ HN Hg) as (cl & Hcl & Hlive).
  destruct (Query_success _ _ _ _ _ _ Hlive Hsrv Hst) as (w2 & HQ & Ht).
  exists w2. split_and!.
  - unfold main. run_M. rewrite HN.
    rewrite (Query_at_object c cl) by done. by rewrite HQ.
  - destruct (Query_decode_Kind reply) as [-> | [-> | ->]]; discriminate.
  - by rewrite Ht, Ht1.
Qed.
End CommandRuns.

(** ** The further properties at the sample inputs *)

Lemma Query_Kind_never_unknown_witness :
  ∃ i e w',
    Query (codes := saver_h) client1 (answer 1 reply_kind3) world1 =
      Returns (i, e) w' ∧
    (Kind_ i = Blanked ∨ Kind_ i = Internal ∨ Kind_ i = External) ∧
    String (Kind_ i) ≠ "unknown".
Proof.
  exists (Query_decode (codes := saver_h) reply_kind3), None,
    (count_trip (set_buffers <[1%positive := reply_kind3]> world1)).
  assert (HQ :
    Query (codes := saver_h) client1 (answer 1 reply_kind3) world1 =
    Returns (Query_decode (codes := saver_h) reply_kind3, None)
      (count_trip (set_buffers <[1%positive := reply_kind3]> world1)))
    by (vm_compute; reflexivity).
  split; [exact HQ|].
  exact (Query_Kind_never_unknown (codes := saver_h) _ _ _ _ _ _ HQ).
Defined.

Lemma Query_times_exclusive_witness :
  ∃ i e w',
    Query (codes := saver_h) client1 (answer 1 reply_off) world1 =
      Returns (i, e) w' ∧
    Active i = false ∧ ActiveTime i = 0 ∧ Countdown i = 7000 * Millisecond.
Proof.
  exists (Query_decode (codes := saver_h) reply_off), None,
    (count_trip (set_buffers <[1%positive := reply_off]> world1)).
  assert (HQ :
    Query (codes := saver_h) client1 (answer 1 reply_off) world1 =
    Returns (Query_decode (codes := saver_h) reply_off, None)
      (count_trip (set_buffers <[1%positive := reply_off]> world1)))
    by (vm_compute; reflexivity).
  split; [exact HQ|]. split; [reflexivity|]. split; [|reflexivity].
  destruct (Query_times_exclusive (codes := saver_h) _ _ _ _ _ _ HQ)
    as (_ & Hinactive & _).
  exact (Hinactive eq_refl).
Defined.

Lemma Query_times_exact_witness :
  ∃ i w',
    Query (codes := saver_h) client1 (answer 1 reply_off) world1 =
      Returns (i, None) w' ∧
    Countdown i = 7000 * Millisecond ∧
    0 ≤ Countdown i ∧ 0 ≤ ActiveTime i ∧ 0 ≤ IdleTime i.
Proof.
  destruct (Query_times_exact (codes := saver_h) client1 world1 _
              (answer 1 reply_off) 1 reply_off client1_live eq_refl)
    as (i & w' & HQ & _ & Hoff & Hpos).
  - discriminate.
  - unfold max_millis. simpl. lia.
  - unfold max_millis. simpl. lia.
  - exists i, w'. split; [exact HQ|]. split; [exact (Hoff eq_refl)|].
    exact Hpos.
Defined.

Lemma NewClient_errors_witness :
  NewClient XEnv_no_display world1 =
    Returns (None, Errorf "Could not open X display.") world1 ∧
  ∃ w', NewClient XEnv_no_extension world1 =
          Returns (None, Errorf "XSS extension not active.") w' ∧
        displays w' = {[fresh (displays world1)]} ∪ displays world1 ∧
        buffers w' = buffers world1.
Proof.
  destruct (NewClient_errors XEnv_no_display world1) as [Hdisplay _].
  destruct (NewClient_errors XEnv_no_extension world1) as [_ Hextension].
  split; [exact (Hdisplay eq_refl)|].
  destruct (Hextension eq_refl eq_refl) as (w' & HN & _ & Hd & Hb & _).
  exists w'. split; [exact HN|]. split; [exact Hd|exact Hb].
Defined.

Lemma NewClient_then_Query_witness :
  ∃ w2,
    Query_at (codes := saver_h) (Some 1%positive) (answer 1 reply_on) world1 =
      Returns (Query_decode (codes := saver_h) reply_on, None) w2 ∧
    trips w2 = 1%nat.
Proof.
  apply (NewClient_then_Query (codes := saver_h) XEnv_ok World_empty
           1%positive world1 _ (answer 1 reply_on) 1 reply_on
           NewClient_world1 eq_refl eq_refl).
  discriminate.
Defined.

Lemma NewClient_unchecked_alloc_witness :
  ∃ c d w',
    NewClient XEnv_no_memory World_empty = Returns (Some c, None) w' ∧
    objects w' !! c = Some (mkClient (Some d) None false) ∧
    buffers w' = buffers World_empty.
Proof.
  apply (NewClient_unchecked_alloc XEnv_no_memory World_empty eq_refl);
    [discriminate|reflexivity].
Defined.

Lemma NewClient_twice_disjoint_witness :
  ∃ w2 cl1 cl2,
    NewClient XEnv_ok world1 = Returns (Some 2%positive, None) w2 ∧
    objects w2 !! 1%positive = Some cl1 ∧
    objects w2 !! 2%positive = Some cl2 ∧
    disp cl1 ≠ disp cl2 ∧ info cl1 ≠ info cl2.
Proof.
  assert (HN2 : ∃ w2,
    NewClient XEnv_ok world1 = Returns (Some 2%positive, None) w2)
    by (eexists; vm_compute; reflexivity).
  destruct HN2 as (w2 & HN2).
  destruct (NewClient_twice_disjoint XEnv_ok XEnv_ok World_empty 1%positive
              world1 2%positive w2 _ _ NewClient_world1 HN2 eq_refl eq_refl)
    as (cl1 & cl2 & H1 & H2 & _ & Hd & Hi & _).
  exists w2, cl1, cl2. split; [exact HN2|]. split; [exact H1|].
  split; [exact H2|]. split; [exact Hd|exact Hi].
Defined.

Lemma Query_one_round_trip_witness :
  ∃ r w',
    Query (codes := saver_h) client1 (answer 0 reply_on) world1 =
      Returns r w' ∧
    trips w' = 1%nat ∧ displays w' = displays world1 ∧
    objects w' = objects world1.
Proof.
  assert (HQ : ∃ r w',
    Query (codes := saver_h) client1 (answer 0 reply_on) world1 =
      Returns r w') by (eexists _, _; vm_compute; reflexivity).
  destruct HQ as (r & w' & HQ).
  destruct (Query_one_round_trip (codes := saver_h) _ _ _ _ _ HQ)
    as (Ht & Hd & Ho & _).
  exists r, w'. split; [exact HQ|]. split; [exact Ht|].
  split; [exact Hd|exact Ho].
Defined.

Lemma Query_again_and_again_witness :
  ∃ w' raw',
    life (codes := saver_h)
      (map (Call (Some 1%positive))
         [answer 1 reply_on; answer 0 reply_off; answer 1 reply_cycle])
      world1 = Returns [] w' ∧
    trips w' = 3%nat ∧ live client1 w' raw'.
Proof.
  destruct (Query_again_and_again (codes := saver_h) 1%positive client1
              [answer 1 reply_on; answer 0 reply_off; answer 1 reply_cycle]
              world1 _ client1_object client1_live)
    as (w' & raw' & Hl & Ht & _ & Hlive).
  exists w', raw'. split; [exact Hl|]. split; [exact Ht|exact Hlive].
Defined.

Lemma run_one_after_another_witness :
  ∃ c2,
    run (codes := saver_h) [0; 0; 0; 0; 0; 0; 1; 1; 1; 1; 1; 1]%nat
      (mkConfig [spawn (Some 1%positive) (answer 1 reply_on);
                 spawn (Some 1%positive) (answer 1 reply_off)] world1)
      = Some c2 ∧
    returned 0 c2 = Some (Query_decode (codes := saver_h) reply_on, None) ∧
    returned 1 c2 = Some (Query_decode (codes := saver_h) reply_off, None) ∧
    trips (world c2) = 2%nat.
Proof.
  apply (run_one_after_another (codes := saver_h) 1%positive client1 world1
           _ (answer 1 reply_on) (answer 1 reply_off) 1 1 reply_on reply_off
           client1_object client1_live eq_refl eq_refl); discriminate.
Defined.

Lemma Lock_never_waits_witness :
  ∃ cfg t,
    run (codes := saver_h) [1; 1; 1; 0]%nat
      (mkConfig
         (map (spawn (Some 1%positive))
            [answer 1 reply_on; answer 1 reply_off])
         world1) = Some cfg ∧
    length (in_flight cfg) = 1%nat ∧
    threads cfg !! 0%nat = Some t ∧ pc t = AtLock ∧
    mutex (self t) = false ∧
    ∃ cfg', step (codes := saver_h) 0 cfg = Some cfg' ∧
            (pc <$> threads cfg' !! 0%nat) = Some AtRequest.
Proof.
  assert (Hrun : ∃ cfg t,
    run (codes := saver_h) [1; 1; 1; 0]%nat
      (mkConfig
         (map (spawn (Some 1%positive))
            [answer 1 reply_on; answer 1 reply_off])
         world1) = Some cfg ∧
    length (in_flight cfg) = 1%nat ∧
    threads cfg !! 0%nat = Some t ∧ pc t = AtLock)
    by (eexists _, _; vm_compute; repeat split; reflexivity).
  destruct Hrun as (cfg & t & Hrun & Hfl & Hn & Hpc).
  exists cfg, t. split; [exact Hrun|]. split; [exact Hfl|].
  split; [exact Hn|]. split; [exact Hpc|].
  exact (Lock_never_waits (codes := saver_h) 1%positive client1 world1 _ _
           cfg client1_object eq_refl Hrun 0%nat t Hn Hpc).
Defined.

Lemma main_panics_on_error_witness :
  main (codes := saver_h) Duration_shown XEnv_no_display (answer 1 reply_on)
    World_empty = Panics "Could not open X display." ∧
  main (codes := saver_h) Duration_shown XEnv_no_extension
    (answer 1 reply_on) World_empty = Panics "XSS extension not active." ∧
  main (codes := saver_h) Duration_shown XEnv_ok (answer 0 reply_on)
    World_empty = Panics "Error querying XSS.".
Proof.
  destruct (main_panics_on_error (codes := saver_h) Duration_shown
              XEnv_no_display (answer 1 reply_on) World_empty)
    as (Hdisplay & _ & _).
  destruct (main_panics_on_error (codes := saver_h) Duration_shown
              XEnv_no_extension (answer 1 reply_on) World_empty)
    as (_ & Hextension & _).
  destruct (main_panics_on_error (codes := saver_h) Duration_shown
              XEnv_ok (answer 0 reply_on) World_empty)
    as (_ & _ & Hquery).
  split; [exact (Hdisplay eq_refl)|].
  split; [exact (Hextension eq_refl eq_refl)|].
  apply (Hquery (mkXInfo 0 0 0 0) reply_on); try reflexivity. discriminate.
Defined.

Lemma main_prints_six_lines_witness :
  ∃ w',
    main (codes := saver_h) Duration_shown XEnv_ok (answer 1 reply_on)
      World_empty =
      Returns
        [ "Enabled: true"; "Active: true"; "Kind: external";
          "Countdown: 0ns"; "ActiveTime: 5000000000ns";
          "IdleTime: 1000000000ns" ] w' ∧
    trips w' = 1%nat.
Proof.
  destruct (main_prints_six_lines (codes := saver_h) Duration_shown XEnv_ok
              (answer 1 reply_on) World_empty (mkXInfo 0 0 0 0) 1 reply_on
              eq_refl ltac:(discriminate) eq_refl eq_refl
              ltac:(discriminate))
    as (w' & Hmain & _ & Ht).
  exists w'. split; [exact Hmain|exact Ht].
Defined.
